(** * aws_agent: the EC2 and S3 toolkits and the query loop

    A shallow embedding of [custom_tools/aws_ec2.py], [custom_tools/aws_s3.py]
    and the query loop of [src/main.py], followed by the properties the
    specification states about them.

    Conventions of the embedding.
    - A Python [str] is a Rocq [string]; a character is an 8-bit code point.
    - A call that may raise returns an [outcome]; state (the process
      environment, the backend behind a boto3 client, the terminal) is passed
      explicitly through the monad [ST].
    - A boto3 client is a record of methods.  Every call made through a client
      is appended to the [trace] of the world together with the exception it
      raised, if any, so that "the request sent to the backend" is an
      observable of the model.
    - Responses of the backend are typed after the shapes the code reads
      ([response["Reservations"]], [instance["State"]["Name"]], ...); the two
      fields the code reads with [.get(key, [])] are optional. *)

From Stdlib Require Import ZArith String Ascii List Lia.
From stdpp Require Import base strings gmap list.

Set Warnings "-register-all".
Local Open Scope string_scope.

(** ** Python values and exceptions *)

Module Py.

(** Values passed to the SDK as positional or keyword arguments. *)
Inductive pyval :=
| PStr (s : string)
| PInt (z : Z)
| PList (l : list pyval)
| PDict (d : gmap string pyval).

(** An instance of a subclass of [Exception]: its class name and [str(e)]. *)
Record PyException := mkExn { exn_class : string; str : string }.

Inductive outcome (A : Type) :=
| Returns (a : A)
| Raises (e : PyException).
Arguments Returns {A} a.
Arguments Raises {A} e.

(** State and exception monad: [ST S A] is a computation over a state [S]
    that returns an [A] or raises. *)
Definition ST (S A : Type) : Type := S -> outcome A * S.

Definition ret {S A} (a : A) : ST S A := fun s => (Returns a, s).

Definition bind {S A B} (m : ST S A) (k : A -> ST S B) : ST S B :=
  fun s => match m s with
           | (Returns a, s') => k a s'
           | (Raises e, s') => (Raises e, s')
           end.

Definition raise {S A} (e : PyException) : ST S A := fun s => (Raises e, s).

(** [try: body  except Exception as e: handler e] *)
Definition try_except {S A} (body : ST S A) (handler : PyException -> ST S A)
  : ST S A :=
  fun s => match body s with
           | (Returns a, s') => (Returns a, s')
           | (Raises e, s') => handler e s'
           end.

(** Truthiness of an optional string: [None] and [""] are falsy. *)
Definition truthy (x : option string) : bool :=
  match x with
  | None => false
  | Some s => negb (String.eqb s "")
  end.

(** [x or d] for an optional string [x] and a string [d]. *)
Definition or_else (x : option string) (d : string) : string :=
  match x with
  | Some s => if String.eqb s "" then d else s
  | None => d
  end.

(** [sep.join(l)] *)
Definition join (sep : string) (l : list string) : string :=
  String.concat sep l.

Definition newline : string := String (ascii_of_nat 10) EmptyString.

(** [str.isspace] on one character, for code points below 256. *)
Definition isspace (c : ascii) : bool :=
  let n := nat_of_ascii c in
  (((9 <=? n) && (n <=? 13)) || ((28 <=? n) && (n <=? 32))
   || (n =? 133) || (n =? 160))%nat.

Fixpoint lstrip (s : string) : string :=
  match s with
  | EmptyString => EmptyString
  | String c s' => if isspace c then lstrip s' else s
  end.

(** [rstrip] drops the trailing run of whitespace: a character is kept when
    it is not whitespace or when something is kept after it. *)
Fixpoint rstrip (s : string) : string :=
  match s with
  | EmptyString => EmptyString
  | String c s' =>
      match rstrip s' with
      | EmptyString => if isspace c then EmptyString else String c EmptyString
      | r => String c r
      end
  end.

(** [s.strip()] *)
Definition strip (s : string) : string := rstrip (lstrip s).

(** [str.lower] on one character, for code points below 256: the ASCII
    capitals and the Latin-1 capitals other than the multiplication sign. *)
Definition lower_char (c : ascii) : ascii :=
  let n := nat_of_ascii c in
  if (((65 <=? n) && (n <=? 90))
      || ((192 <=? n) && (n <=? 222) && negb (n =? 215)))%nat
  then ascii_of_nat (n + 32) else c.

(** [s.lower()] *)
Fixpoint lower (s : string) : string :=
  match s with
  | EmptyString => EmptyString
  | String c s' => String (lower_char c) (lower s')
  end.

End Py.
Export Py.

#[global] Instance ST_ret {S} : MRet (ST S) := fun A => @ret S A.
#[global] Instance ST_bind {S} : MBind (ST S) := fun A B k m => @bind S A B m k.

(** ** The boto3 boundary *)

Module Boto3.

(** One call made through a client: the service and the method, the
    arguments as the code passed them, and the exception the call raised. *)
Record Event := mkEvent {
  ev_service : string;
  ev_method : string;
  ev_args : list pyval;
  ev_kwargs : gmap string pyval;
  ev_raised : option PyException
}.

Section World.
Context {σ : Type}.

(** The backend behind the clients and the calls made so far. *)
Record World := mkWorld { backend : σ; trace : list Event }.

(** A client method: positional arguments, keyword arguments, and the
    backend it acts on. *)
Definition method (R : Type) : Type :=
  list pyval -> gmap string pyval -> σ -> outcome R * σ.

(** A call [client.name(...)]: run the method and record the call. *)
Definition sdk_call {R} (service name : string) (m : method R)
    (args : list pyval) (kwargs : gmap string pyval) : ST World R :=
  fun w =>
    let '(o, b) := m args kwargs (backend w) in
    let raised := match o with Raises e => Some e | Returns _ => None end in
    (o, {| backend := b;
           trace := trace w ++ [mkEvent service name args kwargs raised] |}).
End World.
Arguments World σ : clear implicits.

(** The process that constructs the toolkits: its environment variables
    and the clients [boto3.client(service, region_name=...)] has built. *)
Record Process := mkProcess {
  environ : gmap string string;
  clients : list (string * string)
}.

(** [os.getenv(name)] *)
Definition os_getenv (name : string) : ST Process (option string) :=
  fun p => (Returns (environ p !! name), p).

(** [boto3.client(service, region_name=region_name)], given the client
    object [c] the SDK hands out for that service and region. *)
Definition boto3_client {C} (service region_name : string) (c : C)
  : ST Process C :=
  fun p => (Returns c, {| environ := environ p;
                          clients := clients p ++ [(service, region_name)] |}).

End Boto3.
Export Boto3.

(** ** phi.tools.Toolkit *)

Module Toolkit.

(** [Toolkit.functions], the registry of a toolkit, keeps the names in the
    order of their first registration. *)
Definition register (name : string) (functions : list string) : list string :=
  if bool_decide (name ∈ functions) then functions else functions ++ [name].

End Toolkit.

(** ** custom_tools/aws_ec2.py *)

Module EC2.

Definition MissingAWSCredentialsError : PyException :=
  mkExn "MissingAWSCredentialsError"
    ("AWS_ACCESS_KEY_ID and AWS_SECRET_ACCESS_KEY must be set as environment variables. "
     +:+ "Please set these variables and try again.").

(** The parts of the responses of the EC2 API that the toolkit reads. *)
Record InstanceState := mkInstanceState { Name : string }.
Record Instance := mkInstance { InstanceId : string; State : InstanceState }.
Record Reservation := mkReservation { Instances : list Instance }.
Record DescribeInstancesResponse := mkDescribeInstances {
  Reservations : list Reservation
}.
Record InstanceStatus := mkInstanceStatus { InstanceState_ : InstanceState }.
Record DescribeInstanceStatusResponse := mkDescribeInstanceStatus {
  InstanceStatuses : list InstanceStatus
}.
Record RunInstancesResponse := mkRunInstances { run_Instances : list Instance }.

Section Tool.
Context {σ : Type}.

(** The object returned by [boto3.client("ec2", region_name=...)]. *)
Record Client := mkClient {
  region_name : string;
  describe_instances : @method σ DescribeInstancesResponse;
  start_instances : @method σ unit;
  stop_instances : @method σ unit;
  describe_instance_status : @method σ DescribeInstanceStatusResponse;
  run_instances : @method σ RunInstancesResponse;
  terminate_instances : @method σ unit
}.

Record EC2Tool := mkEC2Tool {
  client : Client;
  functions : list string
}.

(** [EC2Tool.__init__(region_name="us-east-1")]; [boto3_ec2 r] is the client
    object the SDK builds for region [r]. *)
Definition __init__ (boto3_ec2 : string -> Client) (region_name : option string)
  : ST Process EC2Tool :=
  let region_name := default "us-east-1" region_name in
  let functions := [] in
  aws_access_key ← os_getenv "AWS_ACCESS_KEY_ID";
  aws_secret_key ← os_getenv "AWS_SECRET_ACCESS_KEY";
  if negb (truthy aws_access_key) || negb (truthy aws_secret_key) then
    raise MissingAWSCredentialsError
  else
    client ← boto3_client "ec2" region_name (boto3_ec2 region_name);
    let functions := Toolkit.register "list_instances" functions in
    let functions := Toolkit.register "start_instance" functions in
    let functions := Toolkit.register "stop_instance" functions in
    let functions := Toolkit.register "check_instance_status" functions in
    let functions := Toolkit.register "terminate_instance" functions in
    let functions := Toolkit.register "create_instance" functions in
    mret {| client := client; functions := functions |}.

(** The line [list_instances] appends for one instance. *)
Definition instance_line (instance : Instance) : string :=
  "Instance ID: " +:+ InstanceId instance +:+ ", State: "
  +:+ Name (State instance).

(** The two nested [for] loops of [list_instances], appending to
    [instances]. *)
Definition collect_instances (response : DescribeInstancesResponse)
  : list string :=
  fold_left
    (fun (instances : list string) reservation =>
       fold_left
         (fun (instances : list string) instance =>
            (instances ++ [instance_line instance])%list)
         (Instances reservation) instances)
    (Reservations response) [].

Definition list_instances (self : EC2Tool) : ST (World σ) string :=
  try_except
    (response ← sdk_call "ec2" "describe_instances"
                  (describe_instances (client self)) [] ∅;
     let instances := collect_instances response in
     mret (match instances with
           | [] => "No EC2 instances found."
           | _ => join newline instances
           end))
    (fun e => mret ("Error listing instances: " +:+ str e)).

Definition start_instance (self : EC2Tool) (instance_id : string)
  : ST (World σ) string :=
  try_except
    (_ ← sdk_call "ec2" "start_instances" (start_instances (client self))
           [] {[ "InstanceIds" := PList [PStr instance_id] ]};
     mret ("Instance " +:+ instance_id +:+ " is starting."))
    (fun e => mret ("Error starting instance " +:+ instance_id +:+ ": "
                    +:+ str e)).

Definition stop_instance (self : EC2Tool) (instance_id : string)
  : ST (World σ) string :=
  try_except
    (_ ← sdk_call "ec2" "stop_instances" (stop_instances (client self))
           [] {[ "InstanceIds" := PList [PStr instance_id] ]};
     mret ("Instance " +:+ instance_id +:+ " is stopping."))
    (fun e => mret ("Error stopping instance " +:+ instance_id +:+ ": "
                    +:+ str e)).

Definition check_instance_status (self : EC2Tool) (instance_id : string)
  : ST (World σ) string :=
  try_except
    (response ← sdk_call "ec2" "describe_instance_status"
                  (describe_instance_status (client self))
                  [] {[ "InstanceIds" := PList [PStr instance_id] ]};
     match InstanceStatuses response with
     | [] => mret ("Instance " +:+ instance_id
                   +:+ " is stopped or does not exist.")
     | status :: _ =>
         let state := Name (InstanceState_ status) in
         mret ("Instance " +:+ instance_id +:+ " is " +:+ state +:+ ".")
     end)
    (fun e => mret ("Error checking status of instance " +:+ instance_id
                    +:+ ": " +:+ str e)).

(** The dictionary [launch_params] that [create_instance] passes to
    [run_instances] as keyword arguments. *)
Definition launch_params (image_id instance_type : string)
    (key_name security_group : option string) (min_count max_count : Z)
  : gmap string pyval :=
  let launch_params : gmap string pyval :=
    {[ "ImageId" := PStr image_id;
       "InstanceType" := PStr instance_type;
       "MinCount" := PInt min_count;
       "MaxCount" := PInt max_count ]} in
  let launch_params :=
    match key_name with
    | Some k =>
        if truthy key_name then <["KeyName" := PStr k]> launch_params
        else launch_params
    | None => launch_params
    end in
  let launch_params :=
    match security_group with
    | Some g =>
        if truthy security_group
        then <["SecurityGroups" := PList [PStr g]]> launch_params
        else launch_params
    | None => launch_params
    end in
  launch_params.

(** [create_instance(image_id, instance_type, key_name=None,
    security_group=None, min_count=1, max_count=1)]: an argument that the
    caller leaves out is [None] here. *)
Definition create_instance (self : EC2Tool) (image_id instance_type : string)
    (key_name security_group : option string) (min_count max_count : option Z)
  : ST (World σ) string :=
  let min_count := default 1%Z min_count in
  let max_count := default 1%Z max_count in
  try_except
    (response ← sdk_call "ec2" "run_instances" (run_instances (client self))
                  [] (launch_params image_id instance_type key_name
                        security_group min_count max_count);
     let instance_ids := map InstanceId (run_Instances response) in
     mret ("Instance(s) created successfully. Instance ID(s): "
           +:+ join ", " instance_ids))
    (fun e => mret ("Error creating instance: " +:+ str e)).

Definition terminate_instance (self : EC2Tool) (instance_id : string)
  : ST (World σ) string :=
  try_except
    (_ ← sdk_call "ec2" "terminate_instances"
           (terminate_instances (client self))
           [] {[ "InstanceIds" := PList [PStr instance_id] ]};
     mret ("Instance " +:+ instance_id +:+ " is terminating."))
    (fun e => mret ("Error terminating instance " +:+ instance_id +:+ ": "
                    +:+ str e)).

End Tool.
Arguments Client σ : clear implicits.
Arguments EC2Tool σ : clear implicits.

End EC2.

(** ** custom_tools/aws_s3.py *)

Module S3.

Definition MissingAWSCredentialsError : PyException :=
  mkExn "MissingAWSCredentialsError"
    ("AWS_ACCESS_KEY_ID and AWS_SECRET_ACCESS_KEY must be set as environment variables. "
     +:+ "Please set these variables and try again.").

(** The parts of the responses of the S3 API that the toolkit reads.  The
    code reads [Buckets] and [Contents] with [.get(key, [])], so either may
    be missing from a response. *)
Record Bucket := mkBucket { Name : string }.
Record ListBucketsResponse := mkListBuckets { Buckets : option (list Bucket) }.
Record Object := mkObject { Key : string }.
Record ListObjectsV2Response := mkListObjects {
  Contents : option (list Object)
}.

Section Tool.
Context {σ : Type}.

(** The object returned by [boto3.client("s3", region_name=...)]. *)
Record Client := mkClient {
  region_name : string;
  list_buckets_ : @method σ ListBucketsResponse;
  list_objects_v2 : @method σ ListObjectsV2Response;
  upload_file_ : @method σ unit;
  delete_object : @method σ unit;
  create_bucket_ : @method σ unit;
  delete_bucket_ : @method σ unit
}.

Record S3Tool := mkS3Tool {
  client : Client;
  functions : list string
}.

(** [S3Tool.__init__(region_name="us-east-1")]; [boto3_s3 r] is the client
    object the SDK builds for region [r]. *)
Definition __init__ (boto3_s3 : string -> Client) (region_name : option string)
  : ST Process S3Tool :=
  let region_name := default "us-east-1" region_name in
  let functions := [] in
  aws_access_key ← os_getenv "AWS_ACCESS_KEY_ID";
  aws_secret_key ← os_getenv "AWS_SECRET_ACCESS_KEY";
  if negb (truthy aws_access_key) || negb (truthy aws_secret_key) then
    raise MissingAWSCredentialsError
  else
    client ← boto3_client "s3" region_name (boto3_s3 region_name);
    let functions := Toolkit.register "list_buckets" functions in
    let functions := Toolkit.register "list_objects" functions in
    let functions := Toolkit.register "upload_file" functions in
    let functions := Toolkit.register "delete_file" functions in
    mret {| client := client; functions := functions |}.

Definition list_buckets (self : S3Tool) : ST (World σ) string :=
  try_except
    (response ← sdk_call "s3" "list_buckets" (list_buckets_ (client self))
                  [] ∅;
     let buckets := map Name (default [] (Buckets response)) in
     mret ("Available S3 buckets: " +:+ join ", " buckets))
    (fun e => mret ("Error listing buckets: " +:+ str e)).

Definition list_objects (self : S3Tool) (bucket_name : string)
  : ST (World σ) string :=
  try_except
    (response ← sdk_call "s3" "list_objects_v2"
                  (list_objects_v2 (client self))
                  [] {[ "Bucket" := PStr bucket_name ]};
     let objects := map Key (default [] (Contents response)) in
     mret ("Objects in bucket '" +:+ bucket_name +:+ "': "
           +:+ join ", " objects))
    (fun e => mret ("Error listing objects in bucket '" +:+ bucket_name
                    +:+ "': " +:+ str e)).

Definition upload_file (self : S3Tool)
    (file_path bucket_name object_name : string) : ST (World σ) string :=
  try_except
    (_ ← sdk_call "s3" "upload_file" (upload_file_ (client self))
           [PStr file_path; PStr bucket_name; PStr object_name] ∅;
     mret ("File '" +:+ file_path +:+ "' successfully uploaded to bucket '"
           +:+ bucket_name +:+ "' as '" +:+ object_name +:+ "'"))
    (fun e => mret ("Error uploading file: " +:+ str e)).

Definition delete_file (self : S3Tool) (bucket_name object_name : string)
  : ST (World σ) string :=
  try_except
    (_ ← sdk_call "s3" "delete_object" (delete_object (client self))
           [] {[ "Bucket" := PStr bucket_name; "Key" := PStr object_name ]};
     mret ("File '" +:+ object_name +:+ "' successfully deleted from bucket '"
           +:+ bucket_name +:+ "'"))
    (fun e => mret ("Error deleting file: " +:+ str e)).

(** The dictionary [create_bucket_params] that [create_bucket] passes to the
    client as keyword arguments. *)
Definition create_bucket_params (bucket_name : string)
    (region_name : option string) : gmap string pyval :=
  let create_bucket_params : gmap string pyval :=
    {[ "Bucket" := PStr bucket_name ]} in
  match region_name with
  | Some r =>
      if truthy region_name && negb (String.eqb r "us-east-1") then
        <["CreateBucketConfiguration" :=
            PDict {[ "LocationConstraint" := PStr r ]}]> create_bucket_params
      else create_bucket_params
  | None => create_bucket_params
  end.

(** [create_bucket(bucket_name, region_name=None)] *)
Definition create_bucket (self : S3Tool) (bucket_name : string)
    (region_name : option string) : ST (World σ) string :=
  try_except
    (_ ← sdk_call "s3" "create_bucket" (create_bucket_ (client self))
           [] (create_bucket_params bucket_name region_name);
     mret ("Bucket '" +:+ bucket_name +:+ "' successfully created in region '"
           +:+ or_else region_name "us-east-1" +:+ "'"))
    (fun e => mret ("Error creating bucket '" +:+ bucket_name +:+ "': "
                    +:+ str e)).

Definition delete_bucket (self : S3Tool) (bucket_name : string)
  : ST (World σ) string :=
  try_except
    (_ ← sdk_call "s3" "delete_bucket" (delete_bucket_ (client self))
           [] {[ "Bucket" := PStr bucket_name ]};
     mret ("Bucket '" +:+ bucket_name +:+ "' successfully deleted"))
    (fun e => mret ("Error deleting bucket '" +:+ bucket_name +:+ "': "
                    +:+ str e)).

End Tool.
Arguments Client σ : clear implicits.
Arguments S3Tool σ : clear implicits.

End S3.

(** ** src/main.py *)

Module Main.

(** What [aws_agent.run] returns; the loop reads its [content]. *)
Record RunResponse := mkRunResponse { content : string }.

Section Loop.
Context {α : Type}.

(** The Coordinator, an [Agent] of the phi runtime with state [α] (its
    conversation history among other things). *)
Record Agent := mkAgent {
  run : string -> α -> outcome RunResponse * α
}.

(** The session: the Coordinator's state, what was written to standard
    output, and the queries handed to the Coordinator. *)
Record Session := mkSession {
  agent_state : α;
  stdout : list string;
  forwarded : list string
}.

Definition write (text : string) : ST Session unit :=
  fun s => (Returns tt, {| agent_state := agent_state s;
                           stdout := stdout s ++ [text];
                           forwarded := forwarded s |}).

(** [print(x)] *)
Definition print (x : string) : ST Session unit := write (x +:+ newline).

Definition EOFError : PyException := mkExn "EOFError" "EOF when reading a line".

Definition prompt : string := newline +:+ "Enter your query: ".

Definition process_query (aws_agent : Agent) (user_query : string)
  : ST Session string :=
  fun s =>
    let s1 := {| agent_state := agent_state s;
                 stdout := stdout s;
                 forwarded := forwarded s ++ [user_query] |} in
    match run aws_agent user_query (agent_state s1) with
    | (Returns response, a) =>
        (Returns (content response),
         {| agent_state := a; stdout := stdout s1; forwarded := forwarded s1 |})
    | (Raises e, a) =>
        (Raises e,
         {| agent_state := a; stdout := stdout s1; forwarded := forwarded s1 |})
    end.

(** The [while True] loop of the script.  Every iteration starts with
    [input(prompt)], which writes the prompt and takes the next line of
    standard input, or raises [EOFError] when there is none; the loop is
    therefore a recursion on the lines standard input holds. *)
Fixpoint query_loop (aws_agent : Agent) (stdin : list string)
  : ST Session unit :=
  match stdin with
  | [] => _ ← write prompt; raise EOFError
  | line :: stdin =>
      _ ← write prompt;
      let user_query := strip line in
      if String.eqb (lower user_query) "quit" then
        print "Exiting the aws helper agenet. Goodbye!"
      else
        result ← process_query aws_agent user_query;
        _ ← print result;
        query_loop aws_agent stdin
  end.

End Loop.
Arguments Agent α : clear implicits.
Arguments Session α : clear implicits.

Section Startup.
Context {σ : Type}.


End Startup.

End Main.

(** ** The operations the two toolkits offer to their agents *)

Inductive Operation :=
| Op_list_instances
| Op_start_instance (instance_id : string)
| Op_stop_instance (instance_id : string)
| Op_check_instance_status (instance_id : string)
| Op_create_instance (image_id instance_type : string)
    (key_name security_group : option string) (min_count max_count : option Z)
| Op_terminate_instance (instance_id : string)
| Op_list_buckets
| Op_list_objects (bucket_name : string)
| Op_upload_file (file_path bucket_name object_name : string)
| Op_delete_file (bucket_name object_name : string)
| Op_create_bucket (bucket_name : string) (region_name : option string)
| Op_delete_bucket (bucket_name : string).

(** A call of one operation on the toolkit that defines it. *)
Definition invoke {σ} (ec2_tool : EC2.EC2Tool σ) (s3_tool : S3.S3Tool σ)
    (op : Operation) : ST (World σ) string :=
  match op with
  | Op_list_instances => EC2.list_instances ec2_tool
  | Op_start_instance i => EC2.start_instance ec2_tool i
  | Op_stop_instance i => EC2.stop_instance ec2_tool i
  | Op_check_instance_status i => EC2.check_instance_status ec2_tool i
  | Op_create_instance im ty k g mn mx =>
      EC2.create_instance ec2_tool im ty k g mn mx
  | Op_terminate_instance i => EC2.terminate_instance ec2_tool i
  | Op_list_buckets => S3.list_buckets s3_tool
  | Op_list_objects b => S3.list_objects s3_tool b
  | Op_upload_file f b o => S3.upload_file s3_tool f b o
  | Op_delete_file b o => S3.delete_file s3_tool b o
  | Op_create_bucket b r => S3.create_bucket s3_tool b r
  | Op_delete_bucket b => S3.delete_bucket s3_tool b
  end.

(** The names of the six operations the S3 toolkit defines. *)
Definition s3_operation_names : list string :=
  ["list_buckets"; "list_objects"; "upload_file"; "delete_file";
   "create_bucket"; "delete_bucket"].

(** ** Vocabulary of the statements *)

(** [sub] occurs in [s]. *)
Definition contains (sub s : string) : Prop :=
  exists before after, s = before +:+ sub +:+ after.

(** [s] begins with [p]. *)
Definition begins_with (p s : string) : Prop :=
  exists rest, s = p +:+ rest.

(** The call [c] is the one call made between the worlds [w] and [w']. *)
Definition only_call {σ} (w w' : World σ) (c : Event) : Prop :=
  trace w' = (trace w ++ [c])%list.

(** A variable of the environment that is absent or empty. *)
Definition unset (env : gmap string string) (name : string) : Prop :=
  env !! name = None \/ env !! name = Some "".

(** The instances a response reports, reservation after reservation. *)
Definition all_instances (response : EC2.DescribeInstancesResponse)
  : list EC2.Instance :=
  concat (map EC2.Instances (EC2.Reservations response)).

(** The session after the loop has prompted and said goodbye. *)
Definition after_quit {α} (s : Main.Session α) : Main.Session α :=
  Main.mkSession (Main.agent_state s)
    (Main.stdout s
     ++ [Main.prompt; "Exiting the aws helper agenet. Goodbye!" +:+ newline])
    (Main.forwarded s).

(** The session after the loop has prompted, handed [query] to the
    Coordinator, which answered [answer] and moved to state [a], and printed
    the answer. *)
Definition after_query {α} (s : Main.Session α) (query answer : string)
    (a : α) : Main.Session α :=
  Main.mkSession a
    (Main.stdout s ++ [Main.prompt; answer +:+ newline])
    (Main.forwarded s ++ [query]).

(** One turn of the loop on the line [line], where the text [query] is what
    is compared with "quit" and handed to the Coordinator: on "quit" in any
    letter casing the loop ends after the farewell and forwards nothing;
    otherwise [query] is forwarded, the answer is printed as it is, and the
    loop goes on with the rest of standard input. *)
Definition turn {α} (aws_agent : Main.Agent α) (line query : string)
    (stdin : list string) (s : Main.Session α) : Prop :=
  (lower query = "quit" ->
   Main.query_loop aws_agent (line :: stdin) s = (Returns tt, after_quit s))
  /\ (lower query <> "quit" ->
      forall response a,
        Main.run aws_agent query (Main.agent_state s) = (Returns response, a) ->
        Main.query_loop aws_agent (line :: stdin) s
        = Main.query_loop aws_agent stdin
            (after_query s query (Main.content response) a)).

(** The service and the client method each operation calls. *)
Definition sdk_method (op : Operation) : string * string :=
  match op with
  | Op_list_instances => ("ec2", "describe_instances")
  | Op_start_instance _ => ("ec2", "start_instances")
  | Op_stop_instance _ => ("ec2", "stop_instances")
  | Op_check_instance_status _ => ("ec2", "describe_instance_status")
  | Op_create_instance _ _ _ _ _ _ => ("ec2", "run_instances")
  | Op_terminate_instance _ => ("ec2", "terminate_instances")
  | Op_list_buckets => ("s3", "list_buckets")
  | Op_list_objects _ => ("s3", "list_objects_v2")
  | Op_upload_file _ _ _ => ("s3", "upload_file")
  | Op_delete_file _ _ => ("s3", "delete_object")
  | Op_create_bucket _ _ => ("s3", "create_bucket")
  | Op_delete_bucket _ => ("s3", "delete_bucket")
  end.

(** The line makes the loop stop. *)
Definition is_quit (line : string) : bool :=
  String.eqb (lower (strip line)) "quit".



(** The keywords of a launch request: the four that are always there, and
    the two that depend on an argument. *)
Definition launch_keywords (key_name security_group : option string)
  : gset string :=
  {[ "ImageId"; "InstanceType"; "MinCount"; "MaxCount" ]}
  ∪ (if truthy key_name then {[ "KeyName" ]} else ∅)
  ∪ (if truthy security_group then {[ "SecurityGroups" ]} else ∅).

(** ** Backends used to exercise the statements *)

Module Mock.

(** A method that returns [r] whatever it is asked. *)
Definition returning {R} (r : R) : @method unit R :=
  fun _ _ b => (Returns r, b).

(** A method that raises [e] whatever it is asked. *)
Definition raising {R} (e : PyException) : @method unit R :=
  fun _ _ b => (Raises e, b).

Definition two_reservations : EC2.DescribeInstancesResponse :=
  EC2.mkDescribeInstances
    [EC2.mkReservation
       [EC2.mkInstance "i-1" (EC2.mkInstanceState "running");
        EC2.mkInstance "i-2" (EC2.mkInstanceState "stopped")];
     EC2.mkReservation [];
     EC2.mkReservation
       [EC2.mkInstance "i-3" (EC2.mkInstanceState "pending")]].

Definition ec2_ok (region : string) : EC2.Client unit :=
  EC2.mkClient region
    (returning two_reservations)
    (returning tt) (returning tt)
    (returning (EC2.mkDescribeInstanceStatus
                  [EC2.mkInstanceStatus (EC2.mkInstanceState "running")]))
    (returning (EC2.mkRunInstances
                  [EC2.mkInstance "i-7" (EC2.mkInstanceState "pending")]))
    (returning tt).

Definition ec2_empty (region : string) : EC2.Client unit :=
  EC2.mkClient region
    (returning (EC2.mkDescribeInstances [EC2.mkReservation []]))
    (returning tt) (returning tt)
    (returning (EC2.mkDescribeInstanceStatus []))
    (returning (EC2.mkRunInstances []))
    (returning tt).

Definition ec2_down (e : PyException) (region : string) : EC2.Client unit :=
  EC2.mkClient region (raising e) (raising e) (raising e) (raising e)
    (raising e) (raising e).

Definition s3_ok (region : string) : S3.Client unit :=
  S3.mkClient region
    (returning (S3.mkListBuckets (Some [S3.mkBucket "logs"; S3.mkBucket "www"])))
    (returning (S3.mkListObjects (Some [S3.mkObject "a.txt"])))
    (returning tt) (returning tt) (returning tt) (returning tt).

Definition s3_bare (region : string) : S3.Client unit :=
  S3.mkClient region
    (returning (S3.mkListBuckets None))
    (returning (S3.mkListObjects None))
    (returning tt) (returning tt) (returning tt) (returning tt).


Definition access_denied : PyException :=
  mkExn "ClientError" "An error occurred (AccessDenied)".

Definition world0 : World unit := mkWorld tt [].

Definition ec2_tool (c : EC2.Client unit) : EC2.EC2Tool unit :=
  EC2.mkEC2Tool c [].

Definition s3_tool (c : S3.Client unit) : S3.S3Tool unit :=
  S3.mkS3Tool c [].

Definition with_credentials : Process :=
  mkProcess {[ "AWS_ACCESS_KEY_ID" := "AKIA"; "AWS_SECRET_ACCESS_KEY" := "s3cr3t" ]} [].

Definition without_secret : Process :=
  mkProcess {[ "AWS_ACCESS_KEY_ID" := "AKIA"; "AWS_SECRET_ACCESS_KEY" := "" ]} [].

(** A Coordinator that answers every query with the query itself. *)
Definition echo : Main.Agent unit :=
  Main.mkAgent (fun q a => (Returns (Main.mkRunResponse q), a)).

Definition session0 : Main.Session unit := Main.mkSession tt [] [].


(** A Coordinator whose model cannot be reached. *)
Definition unreachable : Main.Agent unit :=
  Main.mkAgent (fun q a => (Raises (mkExn "APIConnectionError" "Connection error."), a)).


End Mock.

(** * Properties *)

(** ** Strings *)

Lemma append_cons (c : ascii) (s t : string) :
  String c s +:+ t = String c (s +:+ t).
Proof. reflexivity. Qed.

Lemma append_nil_r (s : string) : s +:+ "" = s.
Proof.
  induction s as [|c s IH]; [reflexivity|].
  now rewrite append_cons, IH.
Qed.

Lemma append_assoc (a b c : string) : (a +:+ b) +:+ c = a +:+ (b +:+ c).
Proof.
  induction a as [|x a IH]; [reflexivity|].
  now rewrite !append_cons, IH.
Qed.

Lemma contains_refl (s : string) : contains s s.
Proof. exists "", "". now rewrite append_nil_r. Qed.

Lemma contains_head (sub rest : string) : contains sub (sub +:+ rest).
Proof. now exists "", rest. Qed.

Lemma contains_app_r (sub p s : string) :
  contains sub s -> contains sub (p +:+ s).
Proof.
  intros (before & after & ->). exists (p +:+ before), after.
  now rewrite append_assoc.
Qed.

Lemma begins_with_app_l (p a b : string) :
  begins_with p a -> begins_with p (a +:+ b).
Proof. intros [rest ->]. exists (rest +:+ b). apply append_assoc. Qed.

Lemma begins_with_cons (c d : ascii) (p s : string) :
  begins_with (String c p) (String d s) -> c = d.
Proof. intros [rest H]. rewrite append_cons in H. congruence. Qed.

(** Finds an occurrence of a string among the pieces of a formatted
    string. *)
Ltac find_occurrence :=
  solve [ repeat first [ apply contains_refl
                       | apply contains_head
                       | apply contains_app_r ] ].

(** ** The monad and the recorded calls *)

Section Calls.
Context {σ : Type}.
Implicit Types (w : World σ).

Lemma only_call_inj w w' (c : Event) tr :
  only_call w w' c -> trace w' = (trace w ++ [tr])%list -> c = tr.
Proof.
  unfold only_call. intros H1 H2. rewrite H1 in H2.
  now apply app_inj_tail in H2 as [_ ?].
Qed.

End Calls.

(** ** Every operation turns a failure of the backend into a string *)

(** Unfolds the monadic plumbing of an operation and splits on the outcome
    of the one client method it calls. *)
Ltac run_operation :=
  unfold try_except, mbind, ST_bind, bind, sdk_call, mret, ST_ret, ret in *;
  match goal with
  | |- context [ ?m ?args ?kwargs (backend ?w) ] =>
      destruct (m args kwargs (backend w)) as [[?r|?e] ?b] eqn:?Hcall
  | H : context [ ?m ?args ?kwargs (backend ?w) ] |- _ =>
      destruct (m args kwargs (backend w)) as [[?r|?e] ?b] eqn:?Hcall
  end.

Ltac unfold_operation :=
  unfold invoke,
    EC2.list_instances, EC2.start_instance, EC2.stop_instance,
    EC2.check_instance_status, EC2.create_instance, EC2.terminate_instance,
    S3.list_buckets, S3.list_objects, S3.upload_file, S3.delete_file,
    S3.create_bucket, S3.delete_bucket in *.

Section Operations.
Context {σ : Type}.
Variables (ec2_tool : EC2.EC2Tool σ) (s3_tool : S3.S3Tool σ).

(** An operation never raises: whatever the backend does, the caller gets a
    string. *)
Lemma invoke_returns (op : Operation) (w : World σ) :
  exists s, fst (invoke ec2_tool s3_tool op w) = Returns s.
Proof.
  destruct op; unfold_operation; run_operation; simpl;
    repeat case_match; simplify_eq/=; eauto.
Qed.

(** An operation makes exactly one call to the backend. *)
Lemma invoke_one_call (op : Operation) (w : World σ) :
  exists c, only_call w (snd (invoke ec2_tool s3_tool op w)) c.
Proof.
  unfold only_call.
  destruct op; unfold_operation; run_operation; simpl;
    repeat case_match; simplify_eq/=; eauto.
Qed.

(** C1. For each of the six EC2 operations and the six S3 operations: when
    the call the operation makes to the backend raises an exception [e], the
    operation does not raise; it returns a string that begins with "Error"
    and contains [str(e)]. *)
Theorem operations_return_error_string
    (op : Operation) (w : World σ) (c : Event) (e : PyException) :
  only_call w (snd (invoke ec2_tool s3_tool op w)) c ->
  ev_raised c = Some e ->
  exists s, fst (invoke ec2_tool s3_tool op w) = Returns s
            /\ begins_with "Error" s /\ contains (str e) s.
Proof.
  intros Hcall Hraised.
  destruct op; unfold_operation; run_operation;
    try match goal with
      | H : context [ match ?l with [] => _ | _ :: _ => _ end ] |- _ =>
          destruct l
      end;
    simpl in *;
    (eapply only_call_inj in Hcall; [|reflexivity]); subst c;
    simpl in Hraised; try discriminate;
    injection Hraised as <-;
    (eexists; split; [reflexivity|]; split;
     [ apply begins_with_app_l; eexists; reflexivity | find_occurrence ]).
Qed.

End Operations.

Lemma operations_return_error_string_witness :
  exists s,
    fst (invoke (Mock.ec2_tool (Mock.ec2_down Mock.access_denied "us-east-1"))
           (Mock.s3_tool (Mock.s3_ok "us-east-1"))
           (Op_check_instance_status "i-1") Mock.world0) = Returns s
    /\ begins_with "Error" s /\ contains (str Mock.access_denied) s.
Proof.
  apply (operations_return_error_string _ _ _ _
           (mkEvent "ec2" "describe_instance_status" []
              {[ "InstanceIds" := PList [PStr "i-1"] ]}
              (Some Mock.access_denied))).
  - reflexivity.
  - reflexivity.
Defined.

(** ** The credential guard *)

Lemma truthy_unset (env : gmap string string) (name : string) :
  unset env name -> truthy (env !! name) = false.
Proof. now intros [-> | ->]. Qed.

(** C2. When the access key identifier or the secret key is absent from the
    environment or empty, the constructors of both toolkits raise
    [MissingAWSCredentialsError], whose message names both variables, and
    leave the process as it was: no client has been built.  Each constructor
    reads the environment itself. *)
Theorem missing_credentials_fail_construction {σ}
    (boto3_ec2 : string -> EC2.Client σ) (boto3_s3 : string -> S3.Client σ)
    (region_name : option string) (p : Process) :
  unset (environ p) "AWS_ACCESS_KEY_ID"
  \/ unset (environ p) "AWS_SECRET_ACCESS_KEY" ->
  EC2.__init__ boto3_ec2 region_name p
    = (Raises EC2.MissingAWSCredentialsError, p)
  /\ S3.__init__ boto3_s3 region_name p
    = (Raises S3.MissingAWSCredentialsError, p)
  /\ clients (snd (EC2.__init__ boto3_ec2 region_name p)) = clients p
  /\ clients (snd (S3.__init__ boto3_s3 region_name p)) = clients p
  /\ exn_class EC2.MissingAWSCredentialsError = "MissingAWSCredentialsError"
  /\ exn_class S3.MissingAWSCredentialsError = "MissingAWSCredentialsError"
  /\ contains "AWS_ACCESS_KEY_ID" (str EC2.MissingAWSCredentialsError)
  /\ contains "AWS_SECRET_ACCESS_KEY" (str EC2.MissingAWSCredentialsError)
  /\ contains "AWS_ACCESS_KEY_ID" (str S3.MissingAWSCredentialsError)
  /\ contains "AWS_SECRET_ACCESS_KEY" (str S3.MissingAWSCredentialsError).
Proof.
  intros Hunset.
  assert (Hguard : negb (truthy (environ p !! "AWS_ACCESS_KEY_ID"))
                   || negb (truthy (environ p !! "AWS_SECRET_ACCESS_KEY"))
                   = true).
  { destruct Hunset as [H | H]; rewrite (truthy_unset _ _ H);
      [reflexivity | apply orb_true_r]. }
  assert (Hec2 : EC2.__init__ boto3_ec2 region_name p
                 = (Raises EC2.MissingAWSCredentialsError, p)).
  { unfold EC2.__init__, mbind, ST_bind, bind, os_getenv, raise.
    now rewrite Hguard. }
  assert (Hs3 : S3.__init__ boto3_s3 region_name p
                = (Raises S3.MissingAWSCredentialsError, p)).
  { unfold S3.__init__, mbind, ST_bind, bind, os_getenv, raise.
    now rewrite Hguard. }
  rewrite Hec2, Hs3. repeat split.
  - now exists "", " and AWS_SECRET_ACCESS_KEY must be set as environment variables. Please set these variables and try again.".
  - now exists "AWS_ACCESS_KEY_ID and ", " must be set as environment variables. Please set these variables and try again.".
  - now exists "", " and AWS_SECRET_ACCESS_KEY must be set as environment variables. Please set these variables and try again.".
  - now exists "AWS_ACCESS_KEY_ID and ", " must be set as environment variables. Please set these variables and try again.".
Qed.

Lemma missing_credentials_fail_construction_witness :
  EC2.__init__ Mock.ec2_ok (Some "eu-west-1") Mock.without_secret
    = (Raises EC2.MissingAWSCredentialsError, Mock.without_secret)
  /\ S3.__init__ Mock.s3_ok (Some "eu-west-1") Mock.without_secret
    = (Raises S3.MissingAWSCredentialsError, Mock.without_secret).
Proof.
  destruct (missing_credentials_fail_construction Mock.ec2_ok Mock.s3_ok
              (Some "eu-west-1") Mock.without_secret) as (H1 & H2 & _).
  - right. right. reflexivity.
  - exact (conj H1 H2).
Defined.


Lemma s3_init_with_credentials {σ} (boto3_s3 : string -> S3.Client σ)
    (region_name : option string) (p : Process) :
  truthy (environ p !! "AWS_ACCESS_KEY_ID") = true ->
  truthy (environ p !! "AWS_SECRET_ACCESS_KEY") = true ->
  S3.__init__ boto3_s3 region_name p
  = (Returns
       (S3.mkS3Tool (boto3_s3 (default "us-east-1" region_name))
          ["list_buckets"; "list_objects"; "upload_file"; "delete_file"]),
     mkProcess (environ p)
       (clients p ++ [("s3", default "us-east-1" region_name)])).
Proof.
  intros Ha Hs.
  unfold S3.__init__, mbind, ST_bind, bind, os_getenv, boto3_client.
  now rewrite Ha, Hs.
Qed.

(** ** The operations the S3 toolkit registers *)

(** C3. The S3 toolkit is said to register its six operations.  Constructed
    as [src/main.py] constructs it, it registers four: [create_bucket] and
    [delete_bucket], which the class defines and documents, are never passed
    to [register]. *)
Theorem s3_registers_four_operations :
  exists tool p,
    S3.__init__ Mock.s3_ok (Some "us-east-1") Mock.with_credentials
      = (Returns tool, p)
    /\ S3.functions tool
       = ["list_buckets"; "list_objects"; "upload_file"; "delete_file"]
    /\ S3.functions tool <> s3_operation_names
    /\ ("create_bucket" ∉ S3.functions tool)
    /\ ("delete_bucket" ∉ S3.functions tool).
Proof.
  eexists _, _. split.
  - apply s3_init_with_credentials; reflexivity.
  - simpl. split; [reflexivity|]. split; [discriminate|].
    split; intros Hin; repeat (apply elem_of_cons in Hin as [Hin|Hin];
                               [discriminate|]);
      now apply elem_of_nil in Hin.
Qed.

(** ** The request [create_bucket] sends *)

(** The keyword arguments of the creation request: the bucket, and the
    region constraint exactly when the region argument is a non-empty string
    other than "us-east-1". *)
Lemma create_bucket_params_lookup (bucket_name : string)
    (region_name : option string) :
  S3.create_bucket_params bucket_name region_name !! "Bucket"
    = Some (PStr bucket_name)
  /\ S3.create_bucket_params bucket_name region_name
       !! "CreateBucketConfiguration"
     = match region_name with
       | Some r =>
           if negb (String.eqb r "") && negb (String.eqb r "us-east-1")
           then Some (PDict {[ "LocationConstraint" := PStr r ]})
           else None
       | None => None
       end.
Proof.
  unfold S3.create_bucket_params, truthy.
  destruct region_name as [r|]; [|now split].
  destruct (negb (String.eqb r "") && negb (String.eqb r "us-east-1"));
    now split.
Qed.

(** X9. With a region given, the creation request carries the region
    constraint exactly when the region is not "us-east-1", and the
    confirmation names the bucket and the region. *)
Lemma create_bucket_with_region {σ} (self : S3.S3Tool σ)
    (bucket_name r : string) (w : World σ) (b : σ) :
  r <> "" ->
  S3.create_bucket_ (S3.client self) []
    (S3.create_bucket_params bucket_name (Some r)) (backend w)
    = (Returns tt, b) ->
  (r = "us-east-1" ->
   S3.create_bucket_params bucket_name (Some r)
   = {[ "Bucket" := PStr bucket_name ]})
  /\ (r <> "us-east-1" ->
      S3.create_bucket_params bucket_name (Some r)
      = <[ "CreateBucketConfiguration" :=
             PDict {[ "LocationConstraint" := PStr r ]} ]>
          {[ "Bucket" := PStr bucket_name ]})
  /\ S3.create_bucket self bucket_name (Some r) w
     = (Returns ("Bucket '" +:+ bucket_name
                 +:+ "' successfully created in region '" +:+ r +:+ "'"),
        mkWorld b
          (trace w ++ [mkEvent "s3" "create_bucket" []
                         (S3.create_bucket_params bucket_name (Some r)) None])).
Proof.
  intros Hr Hcall. apply String.eqb_neq in Hr as Hr'.
  split; [|split].
  - intros ->. reflexivity.
  - intros Hne. apply String.eqb_neq in Hne.
    unfold S3.create_bucket_params, truthy. now rewrite Hr', Hne.
  - unfold S3.create_bucket. run_operation; simplify_eq/=.
    unfold or_else. now rewrite Hr'.
Qed.

(** Without a region argument the request never carries a region
    constraint, and the confirmation names "us-east-1", whatever region the
    client of the toolkit was built for. *)
Lemma create_bucket_without_region {σ} (self : S3.S3Tool σ)
    (bucket_name : string) (w : World σ) (b : σ) :
  S3.create_bucket_ (S3.client self) [] {[ "Bucket" := PStr bucket_name ]}
    (backend w) = (Returns tt, b) ->
  S3.create_bucket self bucket_name None w
  = (Returns ("Bucket '" +:+ bucket_name
              +:+ "' successfully created in region 'us-east-1'"),
     mkWorld b
       (trace w ++ [mkEvent "s3" "create_bucket" []
                      {[ "Bucket" := PStr bucket_name ]} None])).
Proof.
  intros Hcall. unfold S3.create_bucket.
  change (S3.create_bucket_params bucket_name None)
    with ({[ "Bucket" := PStr bucket_name ]} : gmap string pyval).
  run_operation; now simplify_eq/=.
Qed.

(** C4. [create_bucket] is said to default to the region the toolkit was
    configured with when the region argument is left out.  A toolkit built
    for "eu-west-1" and asked to create bucket "b" without a region sends a
    request without region constraint and reports "us-east-1". *)
Theorem create_bucket_ignores_configured_region :
  exists tool p,
    S3.__init__ Mock.s3_ok (Some "eu-west-1") Mock.with_credentials
      = (Returns tool, p)
    /\ clients p = [("s3", "eu-west-1")]
    /\ S3.region_name (S3.client tool) = "eu-west-1"
    /\ S3.create_bucket tool "b" None Mock.world0
       = (Returns "Bucket 'b' successfully created in region 'us-east-1'",
          mkWorld tt
            [mkEvent "s3" "create_bucket" [] {[ "Bucket" := PStr "b" ]} None]).
Proof.
  eexists _, _. split.
  - apply s3_init_with_credentials; reflexivity.
  - repeat split.
Qed.

(** ** Listing instances *)

Lemma inner_loop_appends (l : list EC2.Instance) (acc : list string) :
  fold_left (fun (instances : list string) instance =>
               (instances ++ [EC2.instance_line instance])%list) l acc
  = (acc ++ map EC2.instance_line l)%list.
Proof.
  revert acc. induction l as [|i l IH]; intros acc; simpl.
  - now rewrite app_nil_r.
  - rewrite IH, <- app_assoc. reflexivity.
Qed.

Lemma outer_loop_appends (rs : list EC2.Reservation) (acc : list string) :
  fold_left
    (fun (instances : list string) reservation =>
       fold_left
         (fun (instances : list string) instance =>
            (instances ++ [EC2.instance_line instance])%list)
         (EC2.Instances reservation) instances) rs acc
  = (acc ++ map EC2.instance_line (concat (map EC2.Instances rs)))%list.
Proof.
  revert acc. induction rs as [|r rs IH]; intros acc; simpl.
  - now rewrite app_nil_r.
  - rewrite IH, inner_loop_appends, map_app, app_assoc. reflexivity.
Qed.

Lemma collect_instances_flattens (response : EC2.DescribeInstancesResponse) :
  EC2.collect_instances response
  = map EC2.instance_line (all_instances response).
Proof. apply outer_loop_appends. Qed.

(** C5. When the backend answers [describe_instances]: with no instance in
    any reservation, [list_instances] returns exactly "No EC2 instances
    found."; otherwise it returns the lines
    "Instance ID: <id>, State: <state>", one per instance, joined by
    newlines, in the order of the reservations and of the instances within
    each reservation. *)
Theorem list_instances_reports_in_order {σ} (self : EC2.EC2Tool σ)
    (w : World σ) (response : EC2.DescribeInstancesResponse) (b : σ) :
  EC2.describe_instances (EC2.client self) [] ∅ (backend w)
    = (Returns response, b) ->
  (all_instances response = [] ->
   fst (EC2.list_instances self w) = Returns "No EC2 instances found.")
  /\ (all_instances response <> [] ->
      fst (EC2.list_instances self w)
      = Returns (join newline
                   (map (fun i => "Instance ID: " +:+ EC2.InstanceId i
                                  +:+ ", State: " +:+ EC2.Name (EC2.State i))
                      (all_instances response)))).
Proof.
  intros Hcall.
  unfold EC2.list_instances. run_operation; simplify_eq/=.
  rewrite collect_instances_flattens.
  fold EC2.instance_line.
  destruct (all_instances response) as [|i l]; simpl; split;
    intros H; congruence.
Qed.

Lemma list_instances_reports_in_order_witness :
  fst (EC2.list_instances (Mock.ec2_tool (Mock.ec2_ok "us-east-1"))
         Mock.world0)
  = Returns ("Instance ID: i-1, State: running" +:+ newline
             +:+ "Instance ID: i-2, State: stopped" +:+ newline
             +:+ "Instance ID: i-3, State: pending")
  /\ fst (EC2.list_instances (Mock.ec2_tool (Mock.ec2_empty "us-east-1"))
            Mock.world0)
     = Returns "No EC2 instances found.".
Proof.
  split.
  - apply (list_instances_reports_in_order
             (Mock.ec2_tool (Mock.ec2_ok "us-east-1")) Mock.world0
             Mock.two_reservations tt); [reflexivity | discriminate].
  - apply (list_instances_reports_in_order
             (Mock.ec2_tool (Mock.ec2_empty "us-east-1")) Mock.world0
             (EC2.mkDescribeInstances [EC2.mkReservation []]) tt);
      reflexivity.
Defined.

(** ** Checking the status of an instance *)

(** C6. When the backend answers [describe_instance_status] with an empty
    list of status records, [check_instance_status] returns
    "Instance <id> is stopped or does not exist.", which is not an error
    string; when there is a record, it returns "Instance <id> is <state>."
    with the lifecycle state of the first record. *)
Theorem check_instance_status_sentinel {σ} (self : EC2.EC2Tool σ)
    (instance_id : string) (w : World σ)
    (response : EC2.DescribeInstanceStatusResponse) (b : σ) :
  EC2.describe_instance_status (EC2.client self) []
    {[ "InstanceIds" := PList [PStr instance_id] ]} (backend w)
    = (Returns response, b) ->
  (EC2.InstanceStatuses response = [] ->
   fst (EC2.check_instance_status self instance_id w)
   = Returns ("Instance " +:+ instance_id
              +:+ " is stopped or does not exist.")
   /\ ~ begins_with "Error" ("Instance " +:+ instance_id
                             +:+ " is stopped or does not exist."))
  /\ (forall status rest,
        EC2.InstanceStatuses response = status :: rest ->
        fst (EC2.check_instance_status self instance_id w)
        = Returns ("Instance " +:+ instance_id +:+ " is "
                   +:+ EC2.Name (EC2.InstanceState_ status) +:+ ".")).
Proof.
  intros Hcall.
  unfold EC2.check_instance_status. run_operation; simplify_eq/=.
  split.
  - intros ->. split; [reflexivity|].
    intros Hb. now apply begins_with_cons in Hb.
  - intros status rest ->. reflexivity.
Qed.

Lemma check_instance_status_sentinel_witness :
  fst (EC2.check_instance_status (Mock.ec2_tool (Mock.ec2_empty "us-east-1"))
         "i-9" Mock.world0)
  = Returns "Instance i-9 is stopped or does not exist."
  /\ fst (EC2.check_instance_status (Mock.ec2_tool (Mock.ec2_ok "us-east-1"))
            "i-1" Mock.world0)
     = Returns "Instance i-1 is running.".
Proof.
  split.
  - apply (check_instance_status_sentinel
             (Mock.ec2_tool (Mock.ec2_empty "us-east-1")) "i-9" Mock.world0
             (EC2.mkDescribeInstanceStatus []) tt); reflexivity.
  - apply (proj2 (check_instance_status_sentinel
                    (Mock.ec2_tool (Mock.ec2_ok "us-east-1")) "i-1"
                    Mock.world0
                    (EC2.mkDescribeInstanceStatus
                       [EC2.mkInstanceStatus (EC2.mkInstanceState "running")])
                    tt eq_refl)
             (EC2.mkInstanceStatus (EC2.mkInstanceState "running")) []).
    reflexivity.
Defined.

(** ** Confirmations of the S3 operations *)

(** C7. On their success paths, that is when the call to the backend
    returns, [upload_file] and [delete_file] return a string in which the
    bucket name and the object key occur as they were passed, and
    [delete_bucket] returns a string in which the bucket name occurs as it
    was passed. *)
Theorem confirmations_quote_arguments {σ} (self : S3.S3Tool σ)
    (file_path bucket_name object_name : string) (w : World σ) :
  (forall b,
     S3.upload_file_ (S3.client self)
       [PStr file_path; PStr bucket_name; PStr object_name] ∅ (backend w)
       = (Returns tt, b) ->
     exists s,
       fst (S3.upload_file self file_path bucket_name object_name w)
         = Returns s
       /\ contains bucket_name s /\ contains object_name s)
  /\ (forall b,
        S3.delete_object (S3.client self) []
          {[ "Bucket" := PStr bucket_name; "Key" := PStr object_name ]}
          (backend w) = (Returns tt, b) ->
        exists s,
          fst (S3.delete_file self bucket_name object_name w) = Returns s
          /\ contains bucket_name s /\ contains object_name s)
  /\ (forall b,
        S3.delete_bucket_ (S3.client self) []
          {[ "Bucket" := PStr bucket_name ]} (backend w) = (Returns tt, b) ->
        exists s,
          fst (S3.delete_bucket self bucket_name w) = Returns s
          /\ contains bucket_name s).
Proof.
  repeat split; intros b Hcall; unfold_operation; run_operation;
    simplify_eq/=; eexists; repeat split; find_occurrence.
Qed.

Lemma confirmations_quote_arguments_witness :
  (exists s,
     fst (S3.upload_file (Mock.s3_tool (Mock.s3_ok "us-east-1"))
            "/tmp/a.txt" "logs" "2024/a.txt" Mock.world0) = Returns s
     /\ contains "logs" s /\ contains "2024/a.txt" s)
  /\ (exists s,
        fst (S3.delete_file (Mock.s3_tool (Mock.s3_ok "us-east-1"))
               "logs" "2024/a.txt" Mock.world0) = Returns s
        /\ contains "logs" s /\ contains "2024/a.txt" s)
  /\ (exists s,
        fst (S3.delete_bucket (Mock.s3_tool (Mock.s3_ok "us-east-1"))
               "logs" Mock.world0) = Returns s
        /\ contains "logs" s).
Proof.
  destruct (confirmations_quote_arguments
              (Mock.s3_tool (Mock.s3_ok "us-east-1"))
              "/tmp/a.txt" "logs" "2024/a.txt" Mock.world0)
    as (Hup & Hdel & Hbucket).
  split; [|split].
  - apply (Hup tt). reflexivity.
  - apply (Hdel tt). reflexivity.
  - apply (Hbucket tt). reflexivity.
Defined.

(** ** The launch request of [create_instance] *)

Lemma launch_params_lookup (image_id instance_type : string)
    (key_name security_group : option string) (min_count max_count : Z) :
  let params := EC2.launch_params image_id instance_type key_name
                  security_group min_count max_count in
  params !! "ImageId" = Some (PStr image_id)
  /\ params !! "InstanceType" = Some (PStr instance_type)
  /\ params !! "MinCount" = Some (PInt min_count)
  /\ params !! "MaxCount" = Some (PInt max_count)
  /\ params !! "KeyName"
     = match key_name with
       | Some k => if String.eqb k "" then None else Some (PStr k)
       | None => None
       end
  /\ params !! "SecurityGroups"
     = match security_group with
       | Some g => if String.eqb g "" then None else Some (PList [PStr g])
       | None => None
       end.
Proof.
  unfold EC2.launch_params, truthy.
  destruct key_name as [k|], security_group as [g|];
    try destruct (String.eqb k ""); try destruct (String.eqb g "");
    simpl; repeat split.
Qed.

Lemma eqb_empty_cases (s : string) :
  (String.eqb s "" = true /\ s = "") \/ (String.eqb s "" = false /\ s <> "").
Proof.
  destruct (String.eqb s "") eqn:E.
  - left. split; [reflexivity | now apply String.eqb_eq].
  - right. split; [reflexivity | now apply String.eqb_neq].
Qed.

(** C9. [create_instance] makes one call, [run_instances], whose keyword
    arguments contain [KeyName] exactly when the key pair name is a
    non-empty string and [SecurityGroups] exactly when the security group is
    a non-empty string; an empty string is treated as a missing argument;
    [MinCount] and [MaxCount] are always sent and are 1 when the caller does
    not give them. *)
Theorem create_instance_launch_request {σ} (self : EC2.EC2Tool σ)
    (image_id instance_type : string)
    (key_name security_group : option string) (min_count max_count : option Z)
    (w : World σ) :
  exists c,
    only_call w
      (snd (EC2.create_instance self image_id instance_type key_name
              security_group min_count max_count w)) c
    /\ ev_method c = "run_instances"
    /\ (is_Some (ev_kwargs c !! "KeyName")
        <-> exists k, key_name = Some k /\ k <> "")
    /\ (forall k, key_name = Some k -> k <> "" ->
        ev_kwargs c !! "KeyName" = Some (PStr k))
    /\ (is_Some (ev_kwargs c !! "SecurityGroups")
        <-> exists g, security_group = Some g /\ g <> "")
    /\ (forall g, security_group = Some g -> g <> "" ->
        ev_kwargs c !! "SecurityGroups" = Some (PList [PStr g]))
    /\ ev_kwargs c !! "MinCount" = Some (PInt (default 1%Z min_count))
    /\ ev_kwargs c !! "MaxCount" = Some (PInt (default 1%Z max_count))
    /\ EC2.create_instance self image_id instance_type (Some "")
         security_group min_count max_count w
       = EC2.create_instance self image_id instance_type None
           security_group min_count max_count w
    /\ EC2.create_instance self image_id instance_type key_name
         (Some "") min_count max_count w
       = EC2.create_instance self image_id instance_type key_name
           None min_count max_count w.
Proof.
  pose proof (launch_params_lookup image_id instance_type key_name
                security_group (default 1%Z min_count)
                (default 1%Z max_count))
    as (_ & _ & Hmin & Hmax & Hkey & Hgroup).
  set (params := EC2.launch_params image_id instance_type key_name
                   security_group (default 1%Z min_count)
                   (default 1%Z max_count)) in *.
  assert (Hsent : exists raised,
            only_call w
              (snd (EC2.create_instance self image_id instance_type key_name
                      security_group min_count max_count w))
              (mkEvent "ec2" "run_instances" [] params raised)).
  { unfold only_call, EC2.create_instance. fold params.
    run_operation; simpl; eauto. }
  destruct Hsent as [raised Hsent].
  eexists. split; [exact Hsent|]. simpl.
  split; [reflexivity|].
  rewrite Hkey, Hgroup, Hmin, Hmax.
  repeat split.
  - intros [v Hv]. destruct key_name as [k|]; [|discriminate].
    destruct (eqb_empty_cases k) as [[E _]|[_ Hne]];
      [rewrite E in Hv; discriminate | eauto].
  - intros (k & -> & Hne). apply String.eqb_neq in Hne. rewrite Hne. eauto.
  - intros k -> Hne. apply String.eqb_neq in Hne. now rewrite Hne.
  - intros [v Hv]. destruct security_group as [g|]; [|discriminate].
    destruct (eqb_empty_cases g) as [[E _]|[_ Hne]];
      [rewrite E in Hv; discriminate | eauto].
  - intros (g & -> & Hne). apply String.eqb_neq in Hne. rewrite Hne. eauto.
  - intros g -> Hne. apply String.eqb_neq in Hne. now rewrite Hne.
Qed.

(** ** Empty listings of the S3 toolkit *)

(** C10. When the backend answers [list_buckets] with no [Buckets] field or
    with an empty one, the operation returns exactly
    "Available S3 buckets: "; when it answers [list_objects_v2] with no
    [Contents] field or with an empty one, [list_objects] returns exactly
    "Objects in bucket '<name>': ".  Neither has a sentinel for the empty
    case. *)
Theorem empty_listings_return_bare_prefix {σ} (self : S3.S3Tool σ)
    (bucket_name : string) (w : World σ) :
  (forall response b,
     S3.list_buckets_ (S3.client self) [] ∅ (backend w)
       = (Returns response, b) ->
     S3.Buckets response = None \/ S3.Buckets response = Some [] ->
     fst (S3.list_buckets self w) = Returns "Available S3 buckets: ")
  /\ (forall response b,
        S3.list_objects_v2 (S3.client self) []
          {[ "Bucket" := PStr bucket_name ]} (backend w)
          = (Returns response, b) ->
        S3.Contents response = None \/ S3.Contents response = Some [] ->
        fst (S3.list_objects self bucket_name w)
        = Returns ("Objects in bucket '" +:+ bucket_name +:+ "': ")).
Proof.
  split; intros response b Hcall Hempty; unfold_operation; run_operation;
    simplify_eq/=.
  - now destruct Hempty as [-> | ->].
  - assert (Hjoin : join ", " (map S3.Key (default [] (S3.Contents response)))
                    = "") by now destruct Hempty as [-> | ->].
    rewrite Hjoin. now rewrite !append_nil_r.
Qed.

Lemma empty_listings_return_bare_prefix_witness :
  fst (S3.list_buckets (Mock.s3_tool (Mock.s3_bare "us-east-1")) Mock.world0)
  = Returns "Available S3 buckets: "
  /\ fst (S3.list_objects (Mock.s3_tool (Mock.s3_bare "us-east-1")) "logs"
            Mock.world0)
     = Returns "Objects in bucket 'logs': ".
Proof.
  destruct (empty_listings_return_bare_prefix
              (Mock.s3_tool (Mock.s3_bare "us-east-1")) "logs" Mock.world0)
    as (Hbuckets & Hobjects).
  split.
  - apply (Hbuckets (S3.mkListBuckets None) tt); [reflexivity | now left].
  - apply (Hobjects (S3.mkListObjects None) tt); [reflexivity | now left].
Defined.

(** ** The query loop *)

Lemma isspace_lower_char (c : ascii) :
  isspace c = true -> lower_char c = c.
Proof.
  destruct c as [[] [] [] [] [] [] [] []]; vm_compute; congruence.
Qed.

Lemma lower_char_letter_not_space (c l : ascii) :
  lower_char c = l -> isspace l = false -> isspace c = false.
Proof.
  intros Hl Hs. destruct (isspace c) eqn:E; [|reflexivity].
  apply isspace_lower_char in E as E'. congruence.
Qed.

(** A line that is "quit" in some letter casing has no whitespace to
    strip. *)
Lemma strip_quit (line : string) : lower line = "quit" -> strip line = line.
Proof.
  destruct line as [|c1 [|c2 [|c3 [|c4 [|c5 rest]]]]]; try discriminate.
  intros H. injection H as H1 _ _ H4.
  apply lower_char_letter_not_space in H1; [|reflexivity].
  apply lower_char_letter_not_space in H4; [|reflexivity].
  unfold strip. cbn [lstrip]. rewrite H1. cbn [rstrip]. rewrite H4.
  reflexivity.
Qed.

(** One turn of the loop, on the stripped line. *)
Lemma query_loop_turn {α} (aws_agent : Main.Agent α) (line : string)
    (stdin : list string) (s : Main.Session α) :
  turn aws_agent line (strip line) stdin s.
Proof.
  unfold turn. split.
  - intros Hquit. cbn [Main.query_loop].
    unfold mbind, ST_bind, bind, Main.write, Main.print, after_quit.
    rewrite Hquit. simpl. unfold Main.write. simpl.
    now rewrite <- app_assoc.
  - intros Hquery response a Hrun. cbn [Main.query_loop].
    apply String.eqb_neq in Hquery.
    unfold mbind, ST_bind, bind, Main.process_query, Main.write, Main.print,
      after_query.
    rewrite Hquery. simpl. rewrite Hrun. simpl. unfold Main.write. simpl.
    now rewrite <- app_assoc.
Qed.

(** C8, as amended.  The loop strips leading and trailing whitespace from
    the line it reads.  If the stripped line is "quit" in any letter casing
    (in particular if the line itself is), the session ends with the
    farewell and nothing is forwarded; otherwise the stripped line is
    forwarded to the Coordinator, the content of its answer is printed as it
    is, and the loop reads the next line. *)
Theorem query_loop_handles_stripped_line {α} (aws_agent : Main.Agent α)
    (line : string) (stdin : list string) (s : Main.Session α) :
  turn aws_agent line (strip line) stdin s
  /\ (lower line = "quit" ->
      Main.query_loop aws_agent (line :: stdin) s = (Returns tt, after_quit s)).
Proof.
  split; [apply query_loop_turn|].
  intros Hquit. apply query_loop_turn. now rewrite strip_quit.
Qed.

Lemma query_loop_handles_stripped_line_witness :
  Main.query_loop Mock.echo ["QuIt"; "never read"] Mock.session0
  = (Returns tt, after_quit Mock.session0)
  /\ Main.query_loop Mock.echo [" list my buckets  "; "quit"] Mock.session0
     = Main.query_loop Mock.echo ["quit"]
         (after_query Mock.session0 "list my buckets" "list my buckets" tt).
Proof.
  split.
  - apply (query_loop_handles_stripped_line Mock.echo "QuIt" ["never read"]
             Mock.session0). reflexivity.
  - apply (proj2 (proj1 (query_loop_handles_stripped_line Mock.echo
                           " list my buckets  " ["quit"] Mock.session0))
             ltac:(discriminate) (Main.mkRunResponse "list my buckets") tt).
    reflexivity.
Defined.

(** C8, as stated, fails on lines with surrounding whitespace: " quit" is
    not "quit" in any letter casing, yet it ends the session and is not
    forwarded; " hi " is forwarded as "hi". *)
Lemma query_loop_forwards_unmodified_counterexample :
  ~ turn Mock.echo " quit" " quit" [] Mock.session0
  /\ ~ turn Mock.echo " hi " " hi " [] Mock.session0
  /\ Main.forwarded (snd (Main.query_loop Mock.echo [" quit"] Mock.session0))
     = []
  /\ Main.forwarded (snd (Main.query_loop Mock.echo [" hi "] Mock.session0))
     = ["hi"].
Proof.
  split; [|split; [|split; reflexivity]].
  - intros [_ H].
    specialize (H ltac:(discriminate) (Main.mkRunResponse " quit") tt eq_refl).
    vm_compute in H. discriminate.
  - intros [_ H].
    specialize (H ltac:(discriminate) (Main.mkRunResponse " hi ") tt eq_refl).
    vm_compute in H. discriminate.
Qed.

Lemma create_instance_launch_request_witness :
  exists c,
    only_call Mock.world0
      (snd (EC2.create_instance (Mock.ec2_tool (Mock.ec2_ok "us-east-1"))
              "ami-1" "t2.micro" (Some "dev") (Some "") None None
              Mock.world0)) c
    /\ ev_kwargs c !! "KeyName" = Some (PStr "dev")
    /\ ev_kwargs c !! "SecurityGroups" = None
    /\ ev_kwargs c !! "MinCount" = Some (PInt 1)
    /\ ev_kwargs c !! "MaxCount" = Some (PInt 1).
Proof.
  destruct (create_instance_launch_request
              (Mock.ec2_tool (Mock.ec2_ok "us-east-1"))
              "ami-1" "t2.micro" (Some "dev") (Some "") None None Mock.world0)
    as (c & Hc & _ & _ & Hkey & Hgroup & _ & Hmin & Hmax & _).
  exists c. split; [exact Hc|]. split; [|split; [|split; assumption]].
  - apply Hkey; [reflexivity | discriminate].
  - apply eq_None_not_Some. intros Hsome.
    apply Hgroup in Hsome as (g & Hg & Hne). congruence.
Defined.

(** * Further properties of the toolkits *)

Lemma contains_app_l (sub s q : string) :
  contains sub s -> contains sub (s +:+ q).
Proof.
  intros (before & after & ->). exists before, (after +:+ q).
  now rewrite !append_assoc.
Qed.

Lemma contains_join (sep x : string) (l : list string) :
  In x l -> contains x (join sep l).
Proof.
  unfold join. induction l as [|y l IH]; [intros []|].
  intros [-> | Hin]; simpl.
  - destruct l; [apply contains_refl | apply contains_head].
  - destruct l as [|z l]; [destruct Hin|].
    apply contains_app_r, contains_app_r, IH, Hin.
Qed.


Section MoreOperations.
Context {σ : Type}.
Variables (ec2_tool : EC2.EC2Tool σ) (s3_tool : S3.S3Tool σ).

(** X1. Whatever the backend does, an operation returns a string and has
    made exactly one call, to the client method of its own service that
    [sdk_method] lists for it: no operation retries, skips its call or calls
    another method. *)
Theorem operations_call_backend_once (op : Operation) (w : World σ) :
  exists s c,
    fst (invoke ec2_tool s3_tool op w) = Returns s
    /\ only_call w (snd (invoke ec2_tool s3_tool op w)) c
    /\ (ev_service c, ev_method c) = sdk_method op.
Proof.
  unfold only_call.
  destruct op; unfold_operation; run_operation; simpl;
    repeat case_match; simplify_eq/=; eexists _, _; eauto.
Qed.


(** X3. The four operations on one instance name that instance in their
    result, whether the backend accepted the call or raised. *)
Theorem instance_operations_name_instance
    (instance_id : string) (w : World σ) :
  (exists s, fst (EC2.start_instance ec2_tool instance_id w) = Returns s
             /\ contains instance_id s)
  /\ (exists s, fst (EC2.stop_instance ec2_tool instance_id w) = Returns s
                /\ contains instance_id s)
  /\ (exists s, fst (EC2.check_instance_status ec2_tool instance_id w)
                = Returns s
                /\ contains instance_id s)
  /\ (exists s, fst (EC2.terminate_instance ec2_tool instance_id w) = Returns s
                /\ contains instance_id s).
Proof.
  repeat split; unfold_operation; run_operation; simpl;
    repeat case_match; simplify_eq/=;
    (eexists; split; [reflexivity | find_occurrence]).
Qed.

(** X4. [list_objects], [create_bucket] and [delete_bucket] name the bucket
    in their result, whether the backend accepted the call or raised. *)
Theorem bucket_operations_name_bucket
    (bucket_name : string) (region_name : option string) (w : World σ) :
  (exists s, fst (S3.list_objects s3_tool bucket_name w) = Returns s
             /\ contains bucket_name s)
  /\ (exists s, fst (S3.create_bucket s3_tool bucket_name region_name w)
                = Returns s
                /\ contains bucket_name s)
  /\ (exists s, fst (S3.delete_bucket s3_tool bucket_name w) = Returns s
                /\ contains bucket_name s).
Proof.
  repeat split; unfold_operation; run_operation; simpl;
    (eexists; split; [reflexivity | find_occurrence]).
Qed.

End MoreOperations.


(** ** Launching instances *)

(** X5. When [run_instances] returns, [create_instance] answers with the
    identifiers of the launched instances, in the order of the response and
    separated by ", ", after a fixed prefix; every identifier of the
    response occurs in the answer, and a response without instances gives
    the bare prefix. *)
Theorem create_instance_lists_launched {σ} (self : EC2.EC2Tool σ)
    (image_id instance_type : string)
    (key_name security_group : option string) (min_count max_count : option Z)
    (w : World σ) (response : EC2.RunInstancesResponse) (b : σ) :
  EC2.run_instances (EC2.client self) []
    (EC2.launch_params image_id instance_type key_name security_group
       (default 1%Z min_count) (default 1%Z max_count)) (backend w)
    = (Returns response, b) ->
  exists s,
    fst (EC2.create_instance self image_id instance_type key_name
           security_group min_count max_count w) = Returns s
    /\ s = "Instance(s) created successfully. Instance ID(s): "
           +:+ join ", " (map EC2.InstanceId (EC2.run_Instances response))
    /\ (forall i, In i (EC2.run_Instances response) ->
                  contains (EC2.InstanceId i) s)
    /\ (EC2.run_Instances response = [] ->
        s = "Instance(s) created successfully. Instance ID(s): ").
Proof.
  intros Hcall. unfold EC2.create_instance. run_operation; simplify_eq/=.
  eexists. split; [reflexivity|]. split; [reflexivity|]. split.
  - intros i Hin. apply contains_app_r, contains_join, in_map, Hin.
  - now intros ->.
Qed.

Lemma create_instance_lists_launched_witness :
  exists s,
    fst (EC2.create_instance (Mock.ec2_tool (Mock.ec2_ok "us-east-1"))
           "ami-1" "t2.micro" None None None (Some 2%Z) Mock.world0)
      = Returns s
    /\ s = "Instance(s) created successfully. Instance ID(s): i-7".
Proof.
  destruct (create_instance_lists_launched
              (Mock.ec2_tool (Mock.ec2_ok "us-east-1"))
              "ami-1" "t2.micro" None None None (Some 2%Z) Mock.world0
              (EC2.mkRunInstances
                 [EC2.mkInstance "i-7" (EC2.mkInstanceState "pending")])
              tt eq_refl) as (s & Hs & Heq & _).
  exists s. split; [exact Hs | exact Heq].
Defined.

Lemma launch_params_dom (image_id instance_type : string)
    (key_name security_group : option string) (min_count max_count : Z) :
  dom (EC2.launch_params image_id instance_type key_name security_group
         min_count max_count)
  = launch_keywords key_name security_group.
Proof.
  unfold EC2.launch_params, launch_keywords.
  destruct key_name as [k|], security_group as [g|];
    try destruct (truthy (Some k)); try destruct (truthy (Some g));
    rewrite ?dom_insert_L, dom_singleton_L; set_solver.
Qed.

(** X6. The launch request carries the image and the instance type as they
    were passed, no positional argument, and no keyword beyond [ImageId],
    [InstanceType], [MinCount], [MaxCount] and, when their argument is a
    non-empty string, [KeyName] and [SecurityGroups]. *)
Theorem create_instance_request_keywords {σ} (self : EC2.EC2Tool σ)
    (image_id instance_type : string)
    (key_name security_group : option string) (min_count max_count : option Z)
    (w : World σ) :
  exists c,
    only_call w
      (snd (EC2.create_instance self image_id instance_type key_name
              security_group min_count max_count w)) c
    /\ ev_args c = []
    /\ dom (ev_kwargs c) = launch_keywords key_name security_group
    /\ ev_kwargs c !! "ImageId" = Some (PStr image_id)
    /\ ev_kwargs c !! "InstanceType" = Some (PStr instance_type).
Proof.
  pose proof (launch_params_lookup image_id instance_type key_name
                security_group (default 1%Z min_count)
                (default 1%Z max_count)) as (Himage & Htype & _).
  pose proof (launch_params_dom image_id instance_type key_name
                security_group (default 1%Z min_count)
                (default 1%Z max_count)) as Hdom.
  unfold only_call, EC2.create_instance.
  run_operation; simpl; eexists; (split; [reflexivity|]); simpl; auto.
Qed.

(** ** Listings of the S3 toolkit *)

(** X7. When the backend answers, [list_buckets] returns the bucket names
    and [list_objects] the object keys, in the order of the response and
    separated by ", ", after their prefix; every name of the response occurs
    in the result. *)
Theorem listings_join_names {σ} (self : S3.S3Tool σ) (bucket_name : string)
    (w : World σ) :
  (forall response b,
     S3.list_buckets_ (S3.client self) [] ∅ (backend w)
       = (Returns response, b) ->
     exists s,
       fst (S3.list_buckets self w) = Returns s
       /\ s = "Available S3 buckets: "
              +:+ join ", " (map S3.Name (default [] (S3.Buckets response)))
       /\ forall bucket, In bucket (default [] (S3.Buckets response)) ->
                         contains (S3.Name bucket) s)
  /\ (forall response b,
        S3.list_objects_v2 (S3.client self) []
          {[ "Bucket" := PStr bucket_name ]} (backend w)
          = (Returns response, b) ->
        exists s,
          fst (S3.list_objects self bucket_name w) = Returns s
          /\ s = "Objects in bucket '" +:+ bucket_name +:+ "': "
                 +:+ join ", " (map S3.Key (default [] (S3.Contents response)))
          /\ forall object, In object (default [] (S3.Contents response)) ->
                            contains (S3.Key object) s).
Proof.
  split; intros response b Hcall; unfold_operation; run_operation;
    simplify_eq/=; (eexists; split; [reflexivity|]; split; [reflexivity|]);
    intros x Hin; repeat apply contains_app_r;
    apply contains_join, in_map, Hin.
Qed.

Lemma listings_join_names_witness :
  (exists s,
     fst (S3.list_buckets (Mock.s3_tool (Mock.s3_ok "us-east-1")) Mock.world0)
       = Returns s
     /\ s = "Available S3 buckets: logs, www")
  /\ (exists s,
        fst (S3.list_objects (Mock.s3_tool (Mock.s3_ok "us-east-1")) "logs"
               Mock.world0) = Returns s
        /\ s = "Objects in bucket 'logs': a.txt").
Proof.
  destruct (listings_join_names (Mock.s3_tool (Mock.s3_ok "us-east-1"))
              "logs" Mock.world0) as (Hbuckets & Hobjects).
  split.
  - destruct (Hbuckets
                (S3.mkListBuckets (Some [S3.mkBucket "logs"; S3.mkBucket "www"]))
                tt eq_refl) as (s & Hs & Heq & _).
    exists s. split; [exact Hs | exact Heq].
  - destruct (Hobjects (S3.mkListObjects (Some [S3.mkObject "a.txt"]))
                tt eq_refl) as (s & Hs & Heq & _).
    exists s. split; [exact Hs | exact Heq].
Defined.

(** ** Creating buckets *)

(** X8. Whatever the backend does, [create_bucket] sends one request that
    names the bucket and has no other keyword than [Bucket] and
    [CreateBucketConfiguration]; the latter is present exactly when the
    region argument is a non-empty string other than "us-east-1", and then
    it is the location constraint for that region: no request asks for an
    empty location or for "us-east-1". *)
Theorem create_bucket_region_constraint {σ} (self : S3.S3Tool σ)
    (bucket_name : string) (region_name : option string) (w : World σ) :
  exists c,
    only_call w (snd (S3.create_bucket self bucket_name region_name w)) c
    /\ ev_kwargs c !! "Bucket" = Some (PStr bucket_name)
    /\ dom (ev_kwargs c) ⊆ {[ "Bucket"; "CreateBucketConfiguration" ]}
    /\ (forall v,
          ev_kwargs c !! "CreateBucketConfiguration" = Some v
          <-> exists r, region_name = Some r /\ r <> "" /\ r <> "us-east-1"
                        /\ v = PDict {[ "LocationConstraint" := PStr r ]}).
Proof.
  pose proof (create_bucket_params_lookup bucket_name region_name)
    as (Hbucket & Hconf).
  assert (Hdom : dom (S3.create_bucket_params bucket_name region_name)
                 ⊆ {[ "Bucket"; "CreateBucketConfiguration" ]}).
  { unfold S3.create_bucket_params. destruct region_name as [r|];
      [destruct (truthy (Some r) && negb (String.eqb r "us-east-1"))|];
      rewrite ?dom_insert_L, dom_singleton_L; set_solver. }
  assert (Hsent : exists raised,
            only_call w (snd (S3.create_bucket self bucket_name region_name w))
              (mkEvent "s3" "create_bucket" []
                 (S3.create_bucket_params bucket_name region_name) raised)).
  { unfold only_call, S3.create_bucket. run_operation; simpl; eauto. }
  destruct Hsent as [raised Hsent].
  eexists. split; [exact Hsent|]. simpl.
  split; [exact Hbucket|]. split; [exact Hdom|].
  intros v. rewrite Hconf. destruct region_name as [r|].
  - destruct (eqb_empty_cases r) as [[E Hr]|[E Hr]]; rewrite E; simpl.
    + split; [discriminate|]. intros (r' & [= <-] & Hne & _). contradiction.
    + destruct (String.eqb r "us-east-1") eqn:E'; simpl.
      * apply String.eqb_eq in E'. split; [discriminate|].
        intros (r' & [= <-] & _ & Hne & _). contradiction.
      * apply String.eqb_neq in E'. split.
        -- intros [= <-]. eauto 6.
        -- intros (r' & [= <-] & _ & _ & ->). reflexivity.
  - split; [discriminate|]. intros (r' & [=] & _).
Qed.

Lemma create_bucket_with_region_witness :
  S3.create_bucket (Mock.s3_tool (Mock.s3_ok "us-east-1")) "logs"
    (Some "eu-west-1") Mock.world0
  = (Returns "Bucket 'logs' successfully created in region 'eu-west-1'",
     mkWorld tt
       [mkEvent "s3" "create_bucket" []
          (<[ "CreateBucketConfiguration" :=
                PDict {[ "LocationConstraint" := PStr "eu-west-1" ]} ]>
             {[ "Bucket" := PStr "logs" ]}) None]).
Proof.
  apply (create_bucket_with_region (Mock.s3_tool (Mock.s3_ok "us-east-1"))
           "logs" "eu-west-1" Mock.world0 tt); [discriminate | reflexivity].
Defined.

(** ** Construction with credentials *)







(** * Further properties of the query loop *)

Lemma lstrip_head (s : string) :
  lstrip s = "" \/ exists c t, lstrip s = String c t /\ isspace c = false.
Proof.
  induction s as [|c s IH]; [now left|]. simpl.
  destruct (isspace c) eqn:E; [exact IH | right; eauto].
Qed.

Lemma rstrip_head (c : ascii) (t : string) :
  isspace c = false -> exists r, rstrip (String c t) = String c r.
Proof.
  intros E. cbn [rstrip]. destruct (rstrip t); [rewrite E|]; eauto.
Qed.

Lemma rstrip_idempotent (s : string) : rstrip (rstrip s) = rstrip s.
Proof.
  induction s as [|c s IH]; [reflexivity|]. cbn [rstrip].
  destruct (rstrip s) as [|d r] eqn:E.
  - destruct (isspace c) eqn:Ec; [reflexivity|]. cbn [rstrip]. now rewrite Ec.
  - change (rstrip (String c (String d r)))
      with (match rstrip (String d r) with
            | "" => if isspace c then "" else String c ""
            | String _ _ as q => String c q
            end).
    now rewrite IH.
Qed.

(** Stripping a stripped string changes nothing. *)
Lemma strip_idempotent (s : string) : strip (strip s) = strip s.
Proof.
  unfold strip.
  destruct (lstrip_head s) as [-> | (c & t & -> & E)]; [reflexivity|].
  destruct (rstrip_head c t E) as [r Hr]. rewrite Hr.
  cbn [lstrip]. rewrite E, <- Hr. apply rstrip_idempotent.
Qed.

(** One iteration of the loop, whatever the Coordinator does. *)
Lemma query_loop_cons {α} (aws_agent : Main.Agent α) (line : string)
    (stdin : list string) (s : Main.Session α) :
  Main.query_loop aws_agent (line :: stdin) s
  = if is_quit line then (Returns tt, after_quit s)
    else match Main.run aws_agent (strip line) (Main.agent_state s) with
         | (Returns response, a) =>
             Main.query_loop aws_agent stdin
               (after_query s (strip line) (Main.content response) a)
         | (Raises e, a) =>
             (Raises e,
              Main.mkSession a (Main.stdout s ++ [Main.prompt])
                (Main.forwarded s ++ [strip line]))
         end.
Proof.
  unfold is_quit. cbn [Main.query_loop].
  unfold mbind, ST_bind, bind, Main.process_query, Main.write, Main.print,
    after_quit, after_query.
  destruct (String.eqb (lower (strip line)) "quit"); simpl.
  - unfold Main.write. simpl. now rewrite <- app_assoc.
  - destruct (Main.run aws_agent (strip line) (Main.agent_state s))
      as [[response|e] a]; simpl; [|reflexivity].
    unfold Main.write. simpl. now rewrite <- app_assoc.
Qed.

Lemma query_loop_nil {α} (aws_agent : Main.Agent α) (s : Main.Session α) :
  Main.query_loop aws_agent [] s
  = (Raises Main.EOFError,
     Main.mkSession (Main.agent_state s) (Main.stdout s ++ [Main.prompt])
       (Main.forwarded s)).
Proof. reflexivity. Qed.



(** X13. What follows the first line that makes the loop stop is never
    read: the outcome of the loop, what it wrote and what it forwarded do
    not depend on it. *)
Theorem query_loop_ignores_input_after_quit {α} (aws_agent : Main.Agent α)
    (before : list string) (line : string) (after after' : list string)
    (s : Main.Session α) :
  is_quit line = true ->
  Main.query_loop aws_agent (before ++ line :: after) s
  = Main.query_loop aws_agent (before ++ line :: after') s.
Proof.
  intros Hquit. revert s.
  induction before as [|first before IH]; intros s.
  - rewrite !app_nil_l. now rewrite !query_loop_cons, Hquit.
  - rewrite <- !app_comm_cons, !query_loop_cons.
    destruct (is_quit first); [reflexivity|].
    destruct (Main.run aws_agent (strip first) (Main.agent_state s))
      as [[response|e] a]; [apply IH | reflexivity].
Qed.

Lemma query_loop_ignores_input_after_quit_witness :
  Main.query_loop Mock.echo (["hello"] ++ "Quit" :: ["list buckets"])
    Mock.session0
  = Main.query_loop Mock.echo (["hello"] ++ "Quit" :: []) Mock.session0.
Proof.
  apply (query_loop_ignores_input_after_quit Mock.echo ["hello"] "Quit"
           ["list buckets"] [] Mock.session0).
  reflexivity.
Defined.

(** X14. The loop ends normally only through a line that is "quit" once
    stripped and lowered: on every other standard input it ends with an
    exception, [EOFError] when the Coordinator has answered every query. *)
Theorem query_loop_returns_only_on_quit {α} (aws_agent : Main.Agent α)
    (stdin : list string) (s : Main.Session α) :
  fst (Main.query_loop aws_agent stdin s) = Returns tt ->
  exists line, In line stdin /\ is_quit line = true.
Proof.
  revert s. induction stdin as [|line stdin IH]; intros s.
  - rewrite query_loop_nil. discriminate.
  - rewrite query_loop_cons.
    destruct (is_quit line) eqn:Hquit.
    + intros _. exists line. split; [now left | exact Hquit].
    + destruct (Main.run aws_agent (strip line) (Main.agent_state s))
        as [[response|e] a]; [|discriminate].
      intros Hreturn. apply IH in Hreturn as (l & Hin & Hl).
      exists l. split; [now right | exact Hl].
Qed.

Lemma query_loop_returns_only_on_quit_witness :
  exists line, In line ["hi"; " quit "] /\ is_quit line = true.
Proof.
  apply (query_loop_returns_only_on_quit Mock.echo ["hi"; " quit "]
           Mock.session0).
  reflexivity.
Defined.

(** X15. When the Coordinator raises on a query, the loop ends with that
    exception: the query has been forwarded, nothing is printed after the
    prompt, and the rest of standard input is not read. *)
Theorem query_loop_stops_on_agent_failure {α} (aws_agent : Main.Agent α)
    (line : string) (stdin : list string) (s : Main.Session α)
    (e : PyException) (a : α) :
  is_quit line = false ->
  Main.run aws_agent (strip line) (Main.agent_state s) = (Raises e, a) ->
  Main.query_loop aws_agent (line :: stdin) s
  = (Raises e,
     Main.mkSession a (Main.stdout s ++ [Main.prompt])
       (Main.forwarded s ++ [strip line])).
Proof.
  intros Hquit Hrun. now rewrite query_loop_cons, Hquit, Hrun.
Qed.

Lemma query_loop_stops_on_agent_failure_witness :
  Main.query_loop Mock.unreachable [" list buckets "; "quit"] Mock.session0
  = (Raises (mkExn "APIConnectionError" "Connection error."),
     Main.mkSession tt [Main.prompt] ["list buckets"]).
Proof.
  apply (query_loop_stops_on_agent_failure Mock.unreachable " list buckets "
           ["quit"] Mock.session0); reflexivity.
Defined.

(** X16. Every query the loop hands to the Coordinator is a stripped line:
    it has no whitespace left to strip and it is not "quit" in any letter
    casing; and the loop forwards at most one query per line of standard
    input. *)
Theorem forwarded_queries_are_stripped {α} (aws_agent : Main.Agent α)
    (stdin : list string) (s : Main.Session α) :
  exists queries,
    Main.forwarded (snd (Main.query_loop aws_agent stdin s))
      = (Main.forwarded s ++ queries)%list
    /\ Forall (fun q => strip q = q /\ lower q <> "quit") queries
    /\ length queries <= length stdin.
Proof.
  revert s. induction stdin as [|line stdin IH]; intros s.
  - exists []. rewrite query_loop_nil. simpl.
    rewrite app_nil_r. repeat split; [constructor | lia].
  - rewrite query_loop_cons.
    destruct (is_quit line) eqn:Hquit.
    + exists []. simpl. rewrite app_nil_r. repeat split; [constructor | lia].
    + assert (Hq : strip (strip line) = strip line
                   /\ lower (strip line) <> "quit").
      { split; [apply strip_idempotent | now apply String.eqb_neq]. }
      destruct (Main.run aws_agent (strip line) (Main.agent_state s))
        as [[response|e] a].
      * destruct (IH (after_query s (strip line) (Main.content response) a))
          as (queries & Hforwarded & Hall & Hlen).
        exists (strip line :: queries). rewrite Hforwarded. simpl.
        rewrite <- app_assoc. repeat split; [now constructor | lia].
      * exists [strip line]. simpl.
        repeat split; [constructor; [exact Hq | constructor] | lia].
Qed.

(** * The requests behind the operations *)

Section Requests.
Context {σ : Type}.

(** X17. The S3 operations on a bucket or an object send the names they were
    given, whether the call then fails or not: [upload_file] passes the file
    path, the bucket and the key as positional arguments, in that order;
    [delete_file] passes the bucket as [Bucket] and the key as [Key];
    [list_objects] and [delete_bucket] pass the bucket as [Bucket]; none
    sends anything else. *)
Theorem s3_requests_carry_arguments (self : S3.S3Tool σ)
    (file_path bucket_name object_name : string) (w : World σ) :
  (exists raised,
     only_call w
       (snd (S3.upload_file self file_path bucket_name object_name w))
       (mkEvent "s3" "upload_file"
          [PStr file_path; PStr bucket_name; PStr object_name] ∅ raised))
  /\ (exists raised,
        only_call w (snd (S3.delete_file self bucket_name object_name w))
          (mkEvent "s3" "delete_object" []
             {[ "Bucket" := PStr bucket_name; "Key" := PStr object_name ]}
             raised))
  /\ (exists raised,
        only_call w (snd (S3.list_objects self bucket_name w))
          (mkEvent "s3" "list_objects_v2" []
             {[ "Bucket" := PStr bucket_name ]} raised))
  /\ (exists raised,
        only_call w (snd (S3.delete_bucket self bucket_name w))
          (mkEvent "s3" "delete_bucket" []
             {[ "Bucket" := PStr bucket_name ]} raised)).
Proof.
  unfold only_call.
  repeat split; unfold_operation; run_operation; simpl; eauto.
Qed.

(** X18. Each of the four operations on an instance asks the backend about
    that one instance and no other, whether the call then fails or not: the
    request has the single keyword [InstanceIds], bound to the list of the
    one identifier passed. *)
Theorem instance_requests_target_one_instance (self : EC2.EC2Tool σ)
    (instance_id : string) (w : World σ) (op : Operation) :
  op = Op_start_instance instance_id \/ op = Op_stop_instance instance_id
  \/ op = Op_check_instance_status instance_id
  \/ op = Op_terminate_instance instance_id ->
  forall s3_tool : S3.S3Tool σ,
  exists c,
    only_call w (snd (invoke self s3_tool op w)) c
    /\ ev_args c = []
    /\ ev_kwargs c = {[ "InstanceIds" := PList [PStr instance_id] ]}.
Proof.
  unfold only_call.
  intros [-> | [-> | [-> | ->]]] s3_tool; unfold_operation; run_operation;
    simpl; repeat case_match; simplify_eq/=; eauto.
Qed.

End Requests.

Lemma instance_requests_target_one_instance_witness :
  exists c,
    only_call Mock.world0
      (snd (invoke (Mock.ec2_tool (Mock.ec2_down Mock.access_denied "us-east-1"))
              (Mock.s3_tool (Mock.s3_ok "us-east-1"))
              (Op_terminate_instance "i-1") Mock.world0)) c
    /\ ev_args c = []
    /\ ev_kwargs c = {[ "InstanceIds" := PList [PStr "i-1"] ]}.
Proof.
  apply (instance_requests_target_one_instance
           (Mock.ec2_tool (Mock.ec2_down Mock.access_denied "us-east-1"))
           "i-1" Mock.world0 (Op_terminate_instance "i-1")).
  right. right. right. reflexivity.
Defined.
